(** * satisfontory: the two blueprint scripts

    The repository consists of two Node.js scripts,
    [parse-blueprint.js] and [save-blueprint.js].  Both delegate the binary
    codec to the package [@etothepii/satisfactory-file-parser]; what the
    scripts themselves do is read files, call the parser, collect what the
    parser hands to their callbacks, and write files.

    The development embeds exactly that: a small model of the part of the
    Node.js runtime the scripts touch (a file system, the console,
    exceptions, [Buffer.concat]), the scripts as programs in a state and
    exception monad, and the parser as a parameter. *)

From Stdlib Require Import Strings.Byte.
From stdpp Require Import base option list strings gmap.

(** ** The runtime *)

(** The contents of a [Buffer], [Uint8Array] or [ArrayBuffer]. *)
Abbreviation bytes := (list byte).

(** Exceptions a script run can end with.  [ENOENT] is raised by
    [fs.readFileSync] on a missing file, [SyntaxError] by [JSON.parse],
    [TypeError] by [Buffer.concat] and [JSON.stringify]; [ParserError]
    stands for whatever the parser package throws. *)
Inductive exn : Type :=
  | ENOENT (path : string)
  | SyntaxError
  | TypeError
  | ParserError (message : string).

(** What a script can observe and change: the files, by path, and the lines
    printed on the console, oldest first. *)
Record world : Type := World {
  files : gmap string bytes;
  console : list string
}.

(** A computation of the script: it runs in a world, ends in an exception or
    a value, and leaves a world behind (what was written before an exception
    stays written). *)
Definition script (A : Type) : Type := world -> (exn + A) * world.

#[export] Instance script_ret : MRet script :=
  fun A (a : A) w => (inr a, w).

#[export] Instance script_bind : MBind script :=
  fun A B (k : A -> script B) (m : script A) w =>
    match m w with
    | (inl e, w') => (inl e, w')
    | (inr a, w') => k a w'
    end.

Definition throw {A : Type} (e : exn) : script A :=
  fun w => (inl e, w).

(** [fs.readFileSync(path)] *)
Definition readFileSync (path : string) : script bytes :=
  fun w =>
    match files w !! path with
    | Some data => (inr data, w)
    | None => (inl (ENOENT path), w)
    end.

(** [fs.writeFileSync(path, data)]: creates the file or replaces its
    contents.  The model has no directories, permissions or quotas, so the
    write is always accepted, where Node throws when it is refused.  The
    statements below are therefore about what is written and where, and
    about the failures that come before a write; none of them says that a
    write succeeds. *)
Definition writeFileSync (path : string) (data : bytes) : script unit :=
  fun w => (inr tt, World (<[path := data]> (files w)) (console w)).

(** [console.log(line)] *)
Definition console_log (line : string) : script unit :=
  fun w => (inr tt, World (files w) (console w ++ [line])).

(** [Buffer.concat(buffers)]: every element has to be a buffer; [None] stands
    for [undefined], on which Node throws a [TypeError]. *)
Fixpoint Buffer_concat (buffers : list (option bytes)) : script bytes :=
  match buffers with
  | [] => mret []
  | None :: _ => throw TypeError
  | Some chunk :: rest => tail ← Buffer_concat rest; mret (chunk ++ tail)
  end.

(** ** The parser package, as the scripts see it *)

(** One synchronous invocation of a callback handed to
    [Parser.WriteBlueprintFiles]: of the first one, with the header, or of
    the second one, with a chunk of the body. *)
Inductive sink_call : Type :=
  | OnHeader (header : bytes)
  | OnChunk (chunk : bytes).

(** The value [Parser.WriteBlueprintFiles] returns; the script reads one
    field of it. *)
Record summary : Type := Summary {
  configFileBinary : bytes
}.

(** The headers delivered by a sequence of invocations, in order. *)
Definition delivered_headers (calls : list sink_call) : list bytes :=
  omap (fun c => match c with OnHeader h => Some h | OnChunk _ => None end) calls.

(** The body chunks delivered by a sequence of invocations, in order. *)
Definition delivered_chunks (calls : list sink_call) : list bytes :=
  omap (fun c => match c with OnChunk b => Some b | OnHeader _ => None end) calls.

(** What each invocation prints: the first statement of the callback it
    runs. *)
Definition log_line (c : sink_call) : string :=
  match c with
  | OnHeader _ => "on main file header."%string
  | OnChunk _ => "on main file body chunk."%string
  end.

(** ** save-blueprint.js *)

(** The two variables of the script that its callbacks assign:
    [let mainFileHeader;] starts out [undefined] and
    [const mainFileBodyChunks = [];] starts out empty. *)
Record variables : Type := Vars {
  mainFileHeader : option bytes;
  mainFileBodyChunks : list bytes
}.

Definition initially : variables :=
  {| mainFileHeader := None; mainFileBodyChunks := [] |}.

(** [(header) => { console.log(...); mainFileHeader = header; }] *)
Definition on_header (header : bytes) (v : variables) : script variables :=
  console_log "on main file header."%string;;
  mret {| mainFileHeader := Some header;
          mainFileBodyChunks := mainFileBodyChunks v |}.

(** [(chunk) => { console.log(...); mainFileBodyChunks.push(chunk); }] *)
Definition on_chunk (chunk : bytes) (v : variables) : script variables :=
  console_log "on main file body chunk."%string;;
  mret {| mainFileHeader := mainFileHeader v;
          mainFileBodyChunks := mainFileBodyChunks v ++ [chunk] |}.

(** The parser invoking the callbacks it was given: the first one on a
    header, the second one on a chunk, one invocation after the other, each
    on the variables the previous one left. *)
Definition invoke (onHeader onChunk : bytes -> variables -> script variables)
    (c : sink_call) (v : variables) : script variables :=
  match c with
  | OnHeader header => onHeader header v
  | OnChunk chunk => onChunk chunk v
  end.

Fixpoint invoke_all (onHeader onChunk : bytes -> variables -> script variables)
    (calls : list sink_call) (v : variables) : script variables :=
  match calls with
  | [] => mret v
  | c :: rest =>
      v' ← invoke onHeader onChunk c v; invoke_all onHeader onChunk rest v'
  end.

(** The variables after a sequence of invocations: the header is the one
    delivered last, if any was, and every chunk delivered has been pushed
    behind those already there. *)
Definition assigned (calls : list sink_call) (v : variables) : variables :=
  {| mainFileHeader :=
       match last (delivered_headers calls) with
       | Some header => Some header
       | None => mainFileHeader v
       end;
     mainFileBodyChunks := mainFileBodyChunks v ++ delivered_chunks calls |}.

Definition json_path : string := "New Blueprint 2.json"%string.
Definition out_path : string :=
  "C:/Users/GU/AppData/Local/FactoryGame/Saved/SaveGames/blueprints/TEST2/New Blueprint 2.sbp"%string.
Definition out_path_cfg : string :=
  "C:/Users/GU/AppData/Local/FactoryGame/Saved/SaveGames/blueprints/TEST2/New Blueprint 2.sbpcfg"%string.

(** ** parse-blueprint.js *)

Definition sbp_path : string :=
  "C:/Users/GU/AppData/Local/FactoryGame/Saved/SaveGames/blueprints/TEST2/New Blueprint.sbp"%string.
Definition sbpcfg_path : string :=
  "C:/Users/GU/AppData/Local/FactoryGame/Saved/SaveGames/blueprints/TEST2/New Blueprint.sbpcfg"%string.
Definition json_out_path : string := "New Blueprint.json"%string.
Definition display_name : string := "Framed Glass Container"%string.

(** ** A sample parser run

    A stand-in for the parser used to run the scripts on concrete data: it
    takes the sequence of callback invocations to make as its blueprint. *)

Definition sample_summary : summary := {| configFileBinary := [x63; x66; x67] |}.

Definition sample_parser (calls : list sink_call) : list sink_call * (exn + summary) :=
  (calls, inr sample_summary).

Definition sample_world : world :=
  {| files := {[ json_path := [x7b; x7d] ]}; console := [] |}.

(** The header callback invoked once, then two chunks. *)
Definition sample_calls : list sink_call :=
  [OnHeader [x01; x02]; OnChunk [x03]; OnChunk [x04; x05]].

(** The header callback invoked twice, chunks in between and after. *)
Definition sample_calls_two_headers : list sink_call :=
  [OnHeader [x01; x02]; OnChunk [x03]; OnHeader [x0a]; OnChunk [x04; x05]].

(** The chunk callback invoked twice and the header callback never. *)
Definition sample_calls_no_header : list sink_call :=
  [OnChunk [x03]; OnChunk [x04; x05]].

(** A stand-in that makes the invocations and then throws. *)
Definition sample_throwing_parser (calls : list sink_call)
  : list sink_call * (exn + summary) :=
  (calls, inl (ParserError "invalid blueprint"%string)).

(** A world holding the two files parse-blueprint.js reads. *)
Definition sample_game_world : world :=
  {| files := {[ sbp_path := [x01; x02; x03]; sbpcfg_path := [x63; x66; x67] ]};
     console := [] |}.

(** A world holding the main file only. *)
Definition sample_world_without_cfg : world :=
  {| files := {[ sbp_path := [x01; x02; x03] ]}; console := [] |}.

(** Stand-ins for [Parser.ParseBlueprintFiles]: one that returns a
    blueprint made of the two buffers, one that throws. *)
Definition sample_decoder (name : string) (file configFile : bytes)
  : exn + list sink_call :=
  inr [OnHeader file; OnChunk configFile].

Definition sample_throwing_decoder (name : string) (file configFile : bytes)
  : exn + list sink_call :=
  inl (ParserError "unsupported version"%string).

(** A stand-in for [JSON.stringify]. *)
Definition sample_stringify (blueprint : list sink_call) : option bytes :=
  Some [x7b; x7d].

(** A stand-in for [JSON.parse]. *)
Definition sample_json_parse (calls : list sink_call) (file : bytes)
  : option (list sink_call) :=
  Some calls.

Section Scripts.

(** The values [JSON.parse] produces and the parser consumes and produces. *)
Variable Blueprint : Type.

(** [JSON.parse(file.toString())]; [None] when it throws. *)
Variable JSON_parse : bytes -> option Blueprint.

(** [JSON.stringify(blueprint, null, 2)]; [None] when it throws or yields
    [undefined], which [fs.writeFileSync] refuses. *)
Variable JSON_stringify : Blueprint -> option bytes.

(** [Parser.WriteBlueprintFiles(blueprint, onHeader, onChunk)].  The package
    is not part of the repository.  The script observes a call only through
    the invocations of the two callbacks it passes, which the parser makes
    synchronously, and through the value returned or the exception thrown at
    the end; the parameter gives both, for each blueprint. *)
Variable WriteBlueprintFiles : Blueprint -> list sink_call * (exn + summary).

(** [Parser.ParseBlueprintFiles(name, file, configFile)], likewise: the
    blueprint it returns or the exception it throws. *)
Variable ParseBlueprintFiles : string -> bytes -> bytes -> exn + Blueprint.

(** The call as the script makes it, with its two callbacks: they run, in
    the parser's order, and then the call returns or throws. *)
Definition Parser_WriteBlueprintFiles (blueprint : Blueprint)
    (onHeader onChunk : bytes -> variables -> script variables) (v : variables)
  : script (variables * summary) :=
  let '(calls, result) := WriteBlueprintFiles blueprint in
  v' ← invoke_all onHeader onChunk calls v;
  match result with
  | inl e => throw e
  | inr s => mret (v', s)
  end.

Definition save_blueprint : script unit :=
  file ← readFileSync json_path;
  blueprint ← (match JSON_parse file with
               | Some b => mret b
               | None => throw SyntaxError
               end : script Blueprint);
  '(v, s) ← Parser_WriteBlueprintFiles blueprint on_header on_chunk initially;
  main ← Buffer_concat (mainFileHeader v :: map Some (mainFileBodyChunks v));
  writeFileSync out_path main;;
  writeFileSync out_path_cfg (configFileBinary s).

Definition parse_blueprint : script unit :=
  file ← readFileSync sbp_path;
  configFile ← readFileSync sbpcfg_path;
  blueprint ← (match ParseBlueprintFiles display_name file configFile with
               | inl e => throw e
               | inr b => mret b
               end : script Blueprint);
  json ← (match JSON_stringify blueprint with
          | Some text => mret text
          | None => throw TypeError
          end : script bytes);
  writeFileSync json_out_path json;;
  console_log "Blueprint parsed successfully!"%string;;
  console_log "Output saved to: Framed Glass Container.json"%string.

(** ** Running a computation *)

Lemma run_bind {A B : Type} (m : script A) (k : A -> script B) (w : world) :
  (m ≫= k) w = match m w with
                | (inl e, w') => (inl e, w')
                | (inr a, w') => k a w'
                end.
Proof. reflexivity. Qed.

(** [Buffer.concat] of buffers that are all defined is their concatenation
    and touches nothing. *)
Lemma Buffer_concat_defined (buffers : list bytes) (w : world) :
  Buffer_concat (map Some buffers) w = (inr (concat buffers), w).
Proof.
  induction buffers as [|b bs IH]; simpl; [reflexivity|].
  rewrite run_bind, IH. reflexivity.
Qed.

(** [Buffer.concat] throws as soon as the first element is [undefined]. *)
Lemma Buffer_concat_undefined (rest : list (option bytes)) (w : world) :
  Buffer_concat (None :: rest) w = (inl TypeError, w).
Proof. reflexivity. Qed.

(** ** Sequences of invocations *)

Lemma delivered_chunks_cons_chunk (b : bytes) (calls : list sink_call) :
  delivered_chunks (OnChunk b :: calls) = b :: delivered_chunks calls.
Proof. reflexivity. Qed.

Lemma delivered_chunks_cons_header (h : bytes) (calls : list sink_call) :
  delivered_chunks (OnHeader h :: calls) = delivered_chunks calls.
Proof. reflexivity. Qed.

Lemma delivered_headers_cons_chunk (b : bytes) (calls : list sink_call) :
  delivered_headers (OnChunk b :: calls) = delivered_headers calls.
Proof. reflexivity. Qed.

Lemma delivered_headers_cons_header (h : bytes) (calls : list sink_call) :
  delivered_headers (OnHeader h :: calls) = h :: delivered_headers calls.
Proof. reflexivity. Qed.

(** A run of chunk invocations delivers those chunks and no header. *)
Lemma delivered_chunks_only_chunks (chunks : list bytes) :
  delivered_chunks (map OnChunk chunks) = chunks.
Proof.
  induction chunks as [|b bs IH]; [reflexivity|].
  rewrite map_cons, delivered_chunks_cons_chunk, IH. reflexivity.
Qed.

Lemma delivered_headers_only_chunks (chunks : list bytes) :
  delivered_headers (map OnChunk chunks) = [].
Proof.
  induction chunks as [|b bs IH]; [reflexivity|].
  rewrite map_cons, delivered_headers_cons_chunk. exact IH.
Qed.

(** ** The callbacks *)

Lemma invoke_all_run (calls : list sink_call) (v : variables) (w : world) :
  invoke_all on_header on_chunk calls v w =
    (inr (assigned calls v), World (files w) (console w ++ map log_line calls)).
Proof.
  revert v w. induction calls as [|c calls IH]; intros v w.
  - destruct v, w. unfold assigned. simpl. rewrite !app_nil_r. reflexivity.
  - simpl invoke_all. rewrite run_bind.
    destruct c as [h|b]; simpl; rewrite IH; simpl;
      unfold assigned; simpl; rewrite <- !app_assoc; simpl.
    + f_equal. f_equal. f_equal. rewrite last_cons.
      destruct (last (delivered_headers calls)); reflexivity.
    + reflexivity.
Qed.

(** A call of the parser runs the callbacks and then returns or throws. *)
Lemma Parser_WriteBlueprintFiles_run (blueprint : Blueprint) (v : variables) (w : world) :
  Parser_WriteBlueprintFiles blueprint on_header on_chunk v w =
    let w' := World (files w) (console w ++ map log_line (WriteBlueprintFiles blueprint).1) in
    match (WriteBlueprintFiles blueprint).2 with
    | inl e => (inl e, w')
    | inr s => (inr (assigned (WriteBlueprintFiles blueprint).1 v, s), w')
    end.
Proof.
  unfold Parser_WriteBlueprintFiles.
  destruct (WriteBlueprintFiles blueprint) as [calls result]. simpl.
  rewrite run_bind, invoke_all_run. destruct result; reflexivity.
Qed.

(** ** save-blueprint.js, run to its end *)

(** Without the JSON file the run ends at the first statement. *)
Lemma save_blueprint_no_file (w : world) :
  files w !! json_path = None ->
  save_blueprint w = (inl (ENOENT json_path), w).
Proof.
  intros Hfile. unfold save_blueprint.
  rewrite run_bind. unfold readFileSync at 1. rewrite Hfile. reflexivity.
Qed.

(** A file that is not JSON ends the run at [JSON.parse]. *)
Lemma save_blueprint_no_json (w : world) (file : bytes) :
  files w !! json_path = Some file ->
  JSON_parse file = None ->
  save_blueprint w = (inl SyntaxError, w).
Proof.
  intros Hfile Hjson. unfold save_blueprint.
  rewrite run_bind. unfold readFileSync at 1. rewrite Hfile.
  rewrite run_bind, Hjson. reflexivity.
Qed.

(** Once the blueprint is read, what remains is the call of the parser and
    the two writes. *)
Lemma save_blueprint_from_blueprint (w : world) (file : bytes) (blueprint : Blueprint) :
  files w !! json_path = Some file ->
  JSON_parse file = Some blueprint ->
  save_blueprint w =
    ('(v, s) ← Parser_WriteBlueprintFiles blueprint on_header on_chunk initially;
     main ← Buffer_concat (mainFileHeader v :: map Some (mainFileBodyChunks v));
     writeFileSync out_path main;;
     writeFileSync out_path_cfg (configFileBinary s)) w.
Proof.
  intros Hfile Hjson. unfold save_blueprint.
  rewrite run_bind. unfold readFileSync at 1. rewrite Hfile.
  rewrite run_bind, Hjson. reflexivity.
Qed.

(** The world a complete run leaves: the main file holds the header
    delivered last followed by every chunk delivered, the config file holds
    what the parser returned, and the console has one line per invocation. *)
Lemma save_blueprint_completes
    (w : world) (file : bytes) (blueprint : Blueprint)
    (calls : list sink_call) (s : summary) (header : bytes) :
  files w !! json_path = Some file ->
  JSON_parse file = Some blueprint ->
  WriteBlueprintFiles blueprint = (calls, inr s) ->
  last (delivered_headers calls) = Some header ->
  save_blueprint w =
    (inr tt,
     World (<[out_path_cfg := configFileBinary s]>
              (<[out_path := header ++ concat (delivered_chunks calls)]> (files w)))
           (console w ++ map log_line calls)).
Proof.
  intros Hfile Hjson Hcall Hlast.
  rewrite (save_blueprint_from_blueprint w file blueprint Hfile Hjson).
  rewrite run_bind, Parser_WriteBlueprintFiles_run, Hcall. simpl.
  rewrite Hlast.
  rewrite !run_bind, Buffer_concat_defined. reflexivity.
Qed.

(** X6. When the parser throws, that exception ends the run: the callbacks
    have printed their lines and no file has been written. *)
Lemma save_blueprint_parser_throws
    (w : world) (file : bytes) (blueprint : Blueprint)
    (calls : list sink_call) (e : exn) :
  files w !! json_path = Some file ->
  JSON_parse file = Some blueprint ->
  WriteBlueprintFiles blueprint = (calls, inl e) ->
  save_blueprint w = (inl e, World (files w) (console w ++ map log_line calls)).
Proof.
  intros Hfile Hjson Hcall.
  rewrite (save_blueprint_from_blueprint w file blueprint Hfile Hjson).
  rewrite run_bind, Parser_WriteBlueprintFiles_run, Hcall. reflexivity.
Qed.

(** X5. When the parser returns without having delivered a header,
    [mainFileHeader] is still [undefined], [Buffer.concat] throws a
    [TypeError] and no file has been written, whatever chunks were
    delivered. *)
Lemma save_blueprint_without_header
    (w : world) (file : bytes) (blueprint : Blueprint)
    (calls : list sink_call) (s : summary) :
  files w !! json_path = Some file ->
  JSON_parse file = Some blueprint ->
  WriteBlueprintFiles blueprint = (calls, inr s) ->
  delivered_headers calls = [] ->
  save_blueprint w = (inl TypeError, World (files w) (console w ++ map log_line calls)).
Proof.
  intros Hfile Hjson Hcall Hnone.
  rewrite (save_blueprint_from_blueprint w file blueprint Hfile Hjson).
  rewrite run_bind, Parser_WriteBlueprintFiles_run, Hcall. simpl.
  rewrite Hnone. reflexivity.
Qed.

(** ** parse-blueprint.js, run to its end *)


(** X16. An exception of the parser ends the run, as it is, with nothing
    written or printed. *)
Lemma parse_blueprint_parser_throws
    (w : world) (file configFile : bytes) (e : exn) :
  files w !! sbp_path = Some file ->
  files w !! sbpcfg_path = Some configFile ->
  ParseBlueprintFiles display_name file configFile = inl e ->
  parse_blueprint w = (inl e, w).
Proof.
  intros Hfile Hcfg Hparse. unfold parse_blueprint.
  rewrite run_bind. unfold readFileSync at 1. rewrite Hfile.
  rewrite run_bind. unfold readFileSync at 1. rewrite Hcfg.
  rewrite run_bind, Hparse. reflexivity.
Qed.

(** The two files the script writes are different files. *)
Lemma out_path_ne_cfg : out_path_cfg <> out_path.
Proof. discriminate. Qed.

(** The usual run: the parser delivers the header once and then the body,
    chunk after chunk, and returns its summary.  The main file then holds
    the header followed by the chunks in the order they were delivered, and
    the config file holds the [configFileBinary] of the summary.  Whether
    the parser package emits in this pattern is not decided by the code of
    the repository; it is the hypothesis here. *)
Theorem save_blueprint_header_then_chunks
    (w : world) (file : bytes) (blueprint : Blueprint)
    (header : bytes) (chunks : list bytes) (s : summary) :
  files w !! json_path = Some file ->
  JSON_parse file = Some blueprint ->
  WriteBlueprintFiles blueprint = (OnHeader header :: map OnChunk chunks, inr s) ->
  (save_blueprint w).1 = inr tt /\
  files (save_blueprint w).2 !! out_path = Some (header ++ concat chunks) /\
  files (save_blueprint w).2 !! out_path_cfg = Some (configFileBinary s).
Proof.
  intros Hfile Hjson Hcall.
  assert (Hchunks : delivered_chunks (OnHeader header :: map OnChunk chunks) = chunks).
  { rewrite delivered_chunks_cons_header. apply delivered_chunks_only_chunks. }
  assert (Hlast : last (delivered_headers (OnHeader header :: map OnChunk chunks)) = Some header).
  { rewrite delivered_headers_cons_header, delivered_headers_only_chunks. reflexivity. }
  rewrite (save_blueprint_completes w file blueprint _ s header Hfile Hjson Hcall Hlast).
  rewrite Hchunks. simpl. split; [reflexivity|]. split.
  - rewrite lookup_insert_ne by apply out_path_ne_cfg. apply lookup_insert_eq.
  - apply lookup_insert_eq.
Qed.

(** C10. However often the header callback is invoked during
    [WriteBlueprintFiles] (in particular more than once), the main file the
    script assembles starts with the header delivered last: the variable is
    overwritten, so headers delivered earlier are not in the file.  Every
    body chunk delivered follows it, in the order of the invocations. *)
Theorem save_blueprint_last_header_wins
    (w : world) (file : bytes) (blueprint : Blueprint)
    (calls : list sink_call) (s : summary) (header : bytes) :
  files w !! json_path = Some file ->
  JSON_parse file = Some blueprint ->
  WriteBlueprintFiles blueprint = (calls, inr s) ->
  last (delivered_headers calls) = Some header ->
  files (save_blueprint w).2 !! out_path =
    Some (header ++ concat (delivered_chunks calls)).
Proof.
  intros Hfile Hjson Hcall Hlast.
  rewrite (save_blueprint_completes w file blueprint calls s header Hfile Hjson Hcall Hlast).
  simpl. rewrite lookup_insert_ne by apply out_path_ne_cfg. apply lookup_insert_eq.
Qed.

(** ** Every run of save-blueprint.js *)

(** What a run does, case by case, in the order of the statements of the
    script. *)
Lemma save_blueprint_run (w : world) :
  save_blueprint w =
    match files w !! json_path with
    | None => (inl (ENOENT json_path), w)
    | Some file =>
        match JSON_parse file with
        | None => (inl SyntaxError, w)
        | Some blueprint =>
            let calls := (WriteBlueprintFiles blueprint).1 in
            let printed := World (files w) (console w ++ map log_line calls) in
            match (WriteBlueprintFiles blueprint).2 with
            | inl e => (inl e, printed)
            | inr s =>
                match last (delivered_headers calls) with
                | None => (inl TypeError, printed)
                | Some header =>
                    (inr tt,
                     World (<[out_path_cfg := configFileBinary s]>
                              (<[out_path := header ++ concat (delivered_chunks calls)]>
                                 (files w)))
                           (console w ++ map log_line calls))
                end
            end
        end
    end.
Proof.
  destruct (files w !! json_path) as [file|] eqn:Hfile.
  - destruct (JSON_parse file) as [blueprint|] eqn:Hjson.
    + rewrite (save_blueprint_from_blueprint w file blueprint Hfile Hjson).
      rewrite run_bind, Parser_WriteBlueprintFiles_run.
      destruct (WriteBlueprintFiles blueprint) as [calls [e|s]]; simpl;
        [reflexivity|].
      destruct (last (delivered_headers calls)) as [header|]; simpl.
      * rewrite !run_bind, Buffer_concat_defined. reflexivity.
      * reflexivity.
    + unfold save_blueprint.
      rewrite run_bind. unfold readFileSync at 1. rewrite Hfile.
      rewrite run_bind, Hjson. reflexivity.
  - unfold save_blueprint.
    rewrite run_bind. unfold readFileSync at 1. rewrite Hfile. reflexivity.
Qed.

(** ** Every run of parse-blueprint.js *)

Lemma parse_blueprint_run (w : world) :
  parse_blueprint w =
    match files w !! sbp_path with
    | None => (inl (ENOENT sbp_path), w)
    | Some file =>
        match files w !! sbpcfg_path with
        | None => (inl (ENOENT sbpcfg_path), w)
        | Some configFile =>
            match ParseBlueprintFiles display_name file configFile with
            | inl e => (inl e, w)
            | inr blueprint =>
                match JSON_stringify blueprint with
                | None => (inl TypeError, w)
                | Some json =>
                    (inr tt,
                     World (<[json_out_path := json]> (files w))
                           (console w ++
                              ["Blueprint parsed successfully!"%string;
                               "Output saved to: Framed Glass Container.json"%string]))
                end
            end
        end
    end.
Proof.
  unfold parse_blueprint.
  rewrite run_bind. unfold readFileSync at 1.
  destruct (files w !! sbp_path) as [file|]; [|reflexivity].
  rewrite run_bind. unfold readFileSync at 1.
  destruct (files w !! sbpcfg_path) as [configFile|]; [|reflexivity].
  rewrite run_bind.
  destruct (ParseBlueprintFiles display_name file configFile) as [e|blueprint];
    [reflexivity|].
  unfold mret at 1, script_ret at 1. rewrite run_bind.
  destruct (JSON_stringify blueprint) as [json|]; [|reflexivity].
  unfold mret at 1, script_ret at 1.
  unfold mbind, script_bind, writeFileSync, console_log. simpl.
  rewrite <- app_assoc. reflexivity.
Qed.

(** ** What save-blueprint.js guarantees *)

(** X1. The script runs to its end only if the JSON file exists, parses,
    the parser returns a summary, and the header callback was invoked at
    least once. *)
Theorem save_blueprint_completes_only_if (w : world) :
  (save_blueprint w).1 = inr tt ->
  exists (file : bytes) (blueprint : Blueprint) (s : summary) (header : bytes),
    files w !! json_path = Some file /\
    JSON_parse file = Some blueprint /\
    (WriteBlueprintFiles blueprint).2 = inr s /\
    last (delivered_headers (WriteBlueprintFiles blueprint).1) = Some header.
Proof.
  rewrite save_blueprint_run.
  destruct (files w !! json_path) as [file|]; [|discriminate].
  destruct (JSON_parse file) as [blueprint|] eqn:Hjson; [|discriminate].
  simpl.
  destruct ((WriteBlueprintFiles blueprint).2) as [e|s] eqn:Hres; [discriminate|].
  destruct (last (delivered_headers (WriteBlueprintFiles blueprint).1))
    as [header|] eqn:Hlast; [|discriminate].
  intros _. exists file, blueprint, s, header. auto.
Qed.

(** X2. Unless the JSON file exists, parses, the parser returns a summary
    and a header was delivered, the run ends in an exception and has
    changed no file: each of these failures comes before the first
    write. *)
Theorem save_blueprint_early_failure_keeps_files (w : world) :
  ~ (exists (file : bytes) (blueprint : Blueprint) (s : summary) (header : bytes),
       files w !! json_path = Some file /\
       JSON_parse file = Some blueprint /\
       (WriteBlueprintFiles blueprint).2 = inr s /\
       last (delivered_headers (WriteBlueprintFiles blueprint).1) = Some header) ->
  (exists e : exn, (save_blueprint w).1 = inl e) /\
  files (save_blueprint w).2 = files w.
Proof.
  intros Hnot. rewrite save_blueprint_run.
  destruct (files w !! json_path) as [file|] eqn:Hfile; [|simpl; eauto].
  destruct (JSON_parse file) as [blueprint|] eqn:Hjson; [|simpl; eauto].
  simpl.
  destruct ((WriteBlueprintFiles blueprint).2) as [e|s] eqn:Hres; [simpl; eauto|].
  destruct (last (delivered_headers (WriteBlueprintFiles blueprint).1))
    as [header|] eqn:Hlast; [|simpl; eauto].
  exfalso. apply Hnot. exists file, blueprint, s, header. auto.
Qed.

(** X3. Whatever happens, no file other than the two output files is
    created, changed or removed; in particular the JSON input is kept. *)
Theorem save_blueprint_frame (w : world) (path : string) :
  path <> out_path ->
  path <> out_path_cfg ->
  files (save_blueprint w).2 !! path = files w !! path.
Proof.
  intros Hmain Hcfg. rewrite save_blueprint_run.
  destruct (files w !! json_path) as [file|]; [|reflexivity].
  destruct (JSON_parse file) as [blueprint|]; [|reflexivity].
  simpl.
  destruct ((WriteBlueprintFiles blueprint).2) as [e'|s]; [reflexivity|].
  destruct (last (delivered_headers (WriteBlueprintFiles blueprint).1));
    [|reflexivity].
  simpl. rewrite !lookup_insert_ne by congruence. reflexivity.
Qed.

(** X4. Once the blueprint is read, the console gains exactly one line per
    callback invocation, in the order of the invocations, whether the run
    then completes or ends in an exception. *)
Theorem save_blueprint_console_lines
    (w : world) (file : bytes) (blueprint : Blueprint) :
  files w !! json_path = Some file ->
  JSON_parse file = Some blueprint ->
  console (save_blueprint w).2 =
    console w ++ map log_line (WriteBlueprintFiles blueprint).1.
Proof.
  intros Hfile Hjson. rewrite save_blueprint_run, Hfile, Hjson. simpl.
  destruct ((WriteBlueprintFiles blueprint).2) as [e'|s]; [reflexivity|].
  destruct (last (delivered_headers (WriteBlueprintFiles blueprint).1));
    reflexivity.
Qed.

(** X7. Running the script again on the world it left gives the same files:
    it does not overwrite its input, and each write replaces the file. *)
Theorem save_blueprint_rerun_same_files (w : world) :
  files (save_blueprint (save_blueprint w).2).2 = files (save_blueprint w).2.
Proof.
  rewrite (save_blueprint_run (save_blueprint w).2).
  rewrite (save_blueprint_run w).
  destruct (files w !! json_path) as [file|] eqn:Hfile;
    [|simpl; rewrite Hfile; reflexivity].
  destruct (JSON_parse file) as [blueprint|] eqn:Hjson;
    [|simpl; rewrite Hfile, Hjson; reflexivity].
  simpl.
  destruct ((WriteBlueprintFiles blueprint).2) as [e'|s] eqn:Hres;
    [simpl; rewrite Hfile, Hjson; simpl; rewrite Hres; reflexivity|].
  destruct (last (delivered_headers (WriteBlueprintFiles blueprint).1))
    as [header|] eqn:Hlast;
    [|simpl; rewrite Hfile, Hjson; simpl; rewrite Hres, Hlast; reflexivity].
  simpl. rewrite !lookup_insert_ne by discriminate.
  rewrite Hfile, Hjson. simpl. rewrite Hres, Hlast. simpl.
  apply map_eq. intros path.
  destruct (decide (path = out_path_cfg)) as [->|Hcfg].
  - rewrite !lookup_insert_eq. reflexivity.
  - rewrite (lookup_insert_ne _ out_path_cfg path) by congruence.
    rewrite (lookup_insert_ne _ out_path_cfg path) by congruence.
    destruct (decide (path = out_path)) as [->|Hmain].
    + rewrite !lookup_insert_eq. reflexivity.
    + rewrite (lookup_insert_ne _ out_path path) by congruence.
      rewrite !lookup_insert_ne by congruence. reflexivity.
Qed.


(** ** What parse-blueprint.js guarantees *)

(** X8. The script runs to its end only if both input files exist, the
    parser returns a blueprint for them, and [JSON.stringify] yields a
    text. *)
Theorem parse_blueprint_completes_only_if (w : world) :
  (parse_blueprint w).1 = inr tt ->
  exists (file configFile : bytes) (blueprint : Blueprint) (json : bytes),
    files w !! sbp_path = Some file /\
    files w !! sbpcfg_path = Some configFile /\
    ParseBlueprintFiles display_name file configFile = inr blueprint /\
    JSON_stringify blueprint = Some json.
Proof.
  rewrite parse_blueprint_run.
  destruct (files w !! sbp_path) as [file|]; [|discriminate].
  destruct (files w !! sbpcfg_path) as [configFile|]; [|discriminate].
  destruct (ParseBlueprintFiles display_name file configFile)
    as [e|blueprint] eqn:Hparse; [discriminate|].
  destruct (JSON_stringify blueprint) as [json|] eqn:Hjson; [|discriminate].
  intros _. exists file, configFile, blueprint, json. auto.
Qed.


(** X10. Whatever happens, no file other than the JSON output is created,
    changed or removed; in particular the two blueprint files are kept. *)
Theorem parse_blueprint_frame (w : world) (path : string) :
  path <> json_out_path ->
  files (parse_blueprint w).2 !! path = files w !! path.
Proof.
  intros Hout. rewrite parse_blueprint_run.
  destruct (files w !! sbp_path) as [file|]; [|reflexivity].
  destruct (files w !! sbpcfg_path) as [configFile|]; [|reflexivity].
  destruct (ParseBlueprintFiles display_name file configFile) as [e'|blueprint];
    [reflexivity|].
  destruct (JSON_stringify blueprint) as [json|]; [|reflexivity].
  simpl. rewrite lookup_insert_ne by congruence. reflexivity.
Qed.

(** X11. When an input file is missing the run ends with [ENOENT] for a
    missing file and changes nothing; the main file is looked for first,
    so it is the one named when it is missing. *)
Theorem parse_blueprint_missing_input (w : world) :
  files w !! sbp_path = None \/ files w !! sbpcfg_path = None ->
  exists path : string,
    parse_blueprint w = (inl (ENOENT path), w) /\
    files w !! path = None /\
    (path = sbp_path \/ path = sbpcfg_path) /\
    (files w !! sbp_path = None -> path = sbp_path).
Proof.
  intros Hmissing. rewrite parse_blueprint_run.
  destruct (files w !! sbp_path) as [file|] eqn:Hfile.
  - destruct Hmissing as [Hmain|Hcfg]; [discriminate|].
    rewrite Hcfg. exists sbpcfg_path. repeat split; auto. discriminate.
  - exists sbp_path. repeat split; auto.
Qed.

(** X12. On a complete run the last line printed announces
    [Framed Glass Container.json], but the script has not touched a file of
    that name: the JSON text is in [New Blueprint.json]. *)
Theorem parse_blueprint_announces_unwritten_file
    (w : world) (file configFile : bytes) (blueprint : Blueprint) (json : bytes) :
  files w !! sbp_path = Some file ->
  files w !! sbpcfg_path = Some configFile ->
  ParseBlueprintFiles display_name file configFile = inr blueprint ->
  JSON_stringify blueprint = Some json ->
  last (console (parse_blueprint w).2)
    = Some "Output saved to: Framed Glass Container.json"%string /\
  files (parse_blueprint w).2 !! "Framed Glass Container.json"%string
    = files w !! "Framed Glass Container.json"%string /\
  files (parse_blueprint w).2 !! json_out_path = Some json.
Proof.
  intros Hfile Hcfg Hparse Hjson.
  rewrite parse_blueprint_run, Hfile, Hcfg, Hparse, Hjson. simpl.
  split; [|split].
  - rewrite last_app. reflexivity.
  - apply lookup_insert_ne. discriminate.
  - apply lookup_insert_eq.
Qed.

(** ** The two scripts one after the other *)

(** X13. parse-blueprint.js does not produce the input of
    save-blueprint.js: it writes [New Blueprint.json], the other reads
    [New Blueprint 2.json].  Without that file, save-blueprint.js run after
    parse-blueprint.js ends with [ENOENT], however the first run went. *)
Theorem save_after_parse_needs_its_own_json (w : world) :
  files w !! json_path = None ->
  (save_blueprint (parse_blueprint w).2).1 = inl (ENOENT json_path).
Proof.
  intros Hnone. rewrite save_blueprint_run.
  replace (files (parse_blueprint w).2 !! json_path) with (@None bytes);
    [reflexivity|].
  rewrite parse_blueprint_run.
  destruct (files w !! sbp_path) as [file|]; [|auto].
  destruct (files w !! sbpcfg_path) as [configFile|]; [|auto].
  destruct (ParseBlueprintFiles display_name file configFile) as [e'|blueprint];
    [auto|].
  destruct (JSON_stringify blueprint) as [json|]; [|auto].
  simpl. rewrite lookup_insert_ne by discriminate. auto.
Qed.

(** X14. save-blueprint.js does not produce the input of
    parse-blueprint.js either: it writes [New Blueprint 2.sbp], the other
    reads [New Blueprint.sbp].  Without that file, parse-blueprint.js run
    after save-blueprint.js ends with [ENOENT], however the first run
    went. *)
Theorem parse_after_save_needs_its_own_sbp (w : world) :
  files w !! sbp_path = None ->
  (parse_blueprint (save_blueprint w).2).1 = inl (ENOENT sbp_path).
Proof.
  intros Hnone. rewrite parse_blueprint_run.
  replace (files (save_blueprint w).2 !! sbp_path) with (@None bytes);
    [reflexivity|].
  rewrite save_blueprint_run.
  destruct (files w !! json_path) as [file|]; [|auto].
  destruct (JSON_parse file) as [blueprint|]; [|auto].
  simpl.
  destruct ((WriteBlueprintFiles blueprint).2) as [e'|s]; [auto|].
  destruct (last (delivered_headers (WriteBlueprintFiles blueprint).1)); [|auto].
  simpl. rewrite !lookup_insert_ne by discriminate. auto.
Qed.

End Scripts.

(** ** The theorems on the sample run *)

Lemma save_blueprint_header_then_chunks_witness :
  let run := save_blueprint (list sink_call) (fun _ => Some sample_calls) sample_parser
               sample_world in
  run.1 = inr tt /\
  files run.2 !! out_path = Some [x01; x02; x03; x04; x05] /\
  files run.2 !! out_path_cfg = Some [x63; x66; x67].
Proof.
  exact (save_blueprint_header_then_chunks
           (list sink_call) (fun _ => Some sample_calls) sample_parser
           sample_world [x7b; x7d] sample_calls
           [x01; x02] [[x03]; [x04; x05]] sample_summary
           eq_refl eq_refl eq_refl).
Defined.

Lemma save_blueprint_last_header_wins_witness :
  files (save_blueprint (list sink_call) (fun _ => Some sample_calls_two_headers)
           sample_parser sample_world).2 !! out_path
  = Some [x0a; x03; x04; x05].
Proof.
  exact (save_blueprint_last_header_wins
           (list sink_call) (fun _ => Some sample_calls_two_headers) sample_parser
           sample_world [x7b; x7d] sample_calls_two_headers
           sample_calls_two_headers sample_summary [x0a]
           eq_refl eq_refl eq_refl eq_refl).
Defined.

(** ** The further theorems on sample runs *)

Lemma save_blueprint_completes_only_if_witness :
  exists (file : bytes) (blueprint : list sink_call) (s : summary) (header : bytes),
    files sample_world !! json_path = Some file /\
    sample_json_parse sample_calls_two_headers file = Some blueprint /\
    (sample_parser blueprint).2 = inr s /\
    last (delivered_headers (sample_parser blueprint).1) = Some header.
Proof.
  exact (save_blueprint_completes_only_if
           (list sink_call) (sample_json_parse sample_calls_two_headers)
           sample_parser sample_world eq_refl).
Defined.

Lemma save_blueprint_early_failure_keeps_files_witness :
  let run := save_blueprint (list sink_call)
               (sample_json_parse sample_calls_no_header) sample_parser
               sample_world in
  (exists e : exn, run.1 = inl e) /\ files run.2 = files sample_world.
Proof.
  apply (save_blueprint_early_failure_keeps_files
           (list sink_call) (sample_json_parse sample_calls_no_header)
           sample_parser sample_world).
  intros (file & blueprint & s & header & _ & Hjson & _ & Hlast).
  injection Hjson as <-. discriminate Hlast.
Defined.


Lemma parse_blueprint_completes_only_if_witness :
  exists (file configFile : bytes) (blueprint : list sink_call) (json : bytes),
    files sample_game_world !! sbp_path = Some file /\
    files sample_game_world !! sbpcfg_path = Some configFile /\
    sample_decoder display_name file configFile = inr blueprint /\
    sample_stringify blueprint = Some json.
Proof.
  exact (parse_blueprint_completes_only_if
           (list sink_call) sample_stringify sample_decoder
           sample_game_world eq_refl).
Defined.

Lemma save_blueprint_frame_witness :
  files (save_blueprint (list sink_call) (sample_json_parse sample_calls)
           sample_parser sample_world).2 !! json_path
  = Some [x7b; x7d].
Proof.
  apply (save_blueprint_frame
           (list sink_call) (sample_json_parse sample_calls) sample_parser
           sample_world json_path); discriminate.
Defined.

Lemma save_blueprint_console_lines_witness :
  console (save_blueprint (list sink_call) (sample_json_parse sample_calls)
             sample_throwing_parser sample_world).2
  = ["on main file header."%string;
     "on main file body chunk."%string;
     "on main file body chunk."%string].
Proof.
  exact (save_blueprint_console_lines
           (list sink_call) (sample_json_parse sample_calls) sample_throwing_parser
           sample_world [x7b; x7d] sample_calls eq_refl eq_refl).
Defined.

Lemma save_blueprint_without_header_witness :
  save_blueprint (list sink_call) (sample_json_parse sample_calls_no_header)
    sample_parser sample_world
  = (inl TypeError,
     World (files sample_world)
           ["on main file body chunk."%string; "on main file body chunk."%string]).
Proof.
  exact (save_blueprint_without_header
           (list sink_call) (sample_json_parse sample_calls_no_header) sample_parser
           sample_world [x7b; x7d] sample_calls_no_header sample_calls_no_header
           sample_summary eq_refl eq_refl eq_refl eq_refl).
Defined.

Lemma save_blueprint_parser_throws_witness :
  save_blueprint (list sink_call) (sample_json_parse sample_calls)
    sample_throwing_parser sample_world
  = (inl (ParserError "invalid blueprint"%string),
     World (files sample_world)
           ["on main file header."%string;
            "on main file body chunk."%string;
            "on main file body chunk."%string]).
Proof.
  exact (save_blueprint_parser_throws
           (list sink_call) (sample_json_parse sample_calls) sample_throwing_parser
           sample_world [x7b; x7d] sample_calls sample_calls
           (ParserError "invalid blueprint"%string) eq_refl eq_refl eq_refl).
Defined.


Lemma parse_blueprint_frame_witness :
  files (parse_blueprint (list sink_call) sample_stringify sample_decoder
           sample_game_world).2 !! sbp_path
  = Some [x01; x02; x03].
Proof.
  apply (parse_blueprint_frame
           (list sink_call) sample_stringify sample_decoder
           sample_game_world sbp_path); discriminate.
Defined.

Lemma parse_blueprint_missing_input_witness :
  exists path : string,
    parse_blueprint (list sink_call) sample_stringify sample_decoder
      sample_world_without_cfg
    = (inl (ENOENT path), sample_world_without_cfg) /\
    files sample_world_without_cfg !! path = None /\
    (path = sbp_path \/ path = sbpcfg_path) /\
    (files sample_world_without_cfg !! sbp_path = None -> path = sbp_path).
Proof.
  exact (parse_blueprint_missing_input
           (list sink_call) sample_stringify sample_decoder
           sample_world_without_cfg (or_intror eq_refl)).
Defined.

Lemma parse_blueprint_announces_unwritten_file_witness :
  let run := parse_blueprint (list sink_call) sample_stringify sample_decoder
               sample_game_world in
  last (console run.2) = Some "Output saved to: Framed Glass Container.json"%string /\
  files run.2 !! "Framed Glass Container.json"%string = None /\
  files run.2 !! json_out_path = Some [x7b; x7d].
Proof.
  exact (parse_blueprint_announces_unwritten_file
           (list sink_call) sample_stringify sample_decoder
           sample_game_world [x01; x02; x03] [x63; x66; x67]
           [OnHeader [x01; x02; x03]; OnChunk [x63; x66; x67]] [x7b; x7d]
           eq_refl eq_refl eq_refl eq_refl).
Defined.

Lemma save_after_parse_needs_its_own_json_witness :
  (save_blueprint (list sink_call) (sample_json_parse sample_calls) sample_parser
     (parse_blueprint (list sink_call) sample_stringify sample_decoder
        sample_game_world).2).1
  = inl (ENOENT json_path).
Proof.
  exact (save_after_parse_needs_its_own_json
           (list sink_call) (sample_json_parse sample_calls) sample_stringify
           sample_parser sample_decoder sample_game_world eq_refl).
Defined.

Lemma parse_after_save_needs_its_own_sbp_witness :
  (parse_blueprint (list sink_call) sample_stringify sample_decoder
     (save_blueprint (list sink_call) (sample_json_parse sample_calls) sample_parser
        sample_world).2).1
  = inl (ENOENT sbp_path).
Proof.
  exact (parse_after_save_needs_its_own_sbp
           (list sink_call) (sample_json_parse sample_calls) sample_stringify
           sample_parser sample_decoder sample_world eq_refl).
Defined.


Lemma parse_blueprint_parser_throws_witness :
  parse_blueprint (list sink_call) sample_stringify sample_throwing_decoder
    sample_game_world
  = (inl (ParserError "unsupported version"%string), sample_game_world).
Proof.
  exact (parse_blueprint_parser_throws
           (list sink_call) sample_stringify sample_throwing_decoder
           sample_game_world [x01; x02; x03] [x63; x66; x67]
           (ParserError "unsupported version"%string) eq_refl eq_refl eq_refl).
Defined.
